(** * heci_example: the MEI session of [heci_example.c]

    A shallow embedding of the Intel ME interface example
    ([src/heci_example/heci_example.c]): the [struct mei] session, its
    teardown [mei_deinit], the connect handshake [mei_init], the two
    transfer functions [mei_send_msg] and [mei_recv_msg], and the MKHI
    wrapper [mkhi_host_if_fix_init].

    The C functions mutate a [struct mei] through a pointer and talk to the
    kernel through system calls.  Both are modelled explicitly: a function is
    a computation in the monad [M S A] that threads the pointed-to struct [S],
    asks an operating-system oracle [os] for the result of each system call,
    and reports the events it performed, in program order.  A call of
    [exit] ends the computation with [Exited]. *)

From Stdlib Require Import ZArith List String Bool Lia.
From Stdlib Require Import Strings.Byte.
Import ListNotations.

Open Scope string_scope.
Open Scope list_scope.
Open Scope Z_scope.

(** ** Data *)

(** [uuid_le] of [linux/uuid.h]: sixteen bytes, each an 8-bit value. *)
Definition uuid_le := list Z.

(** [UUID_LE(a, b, c, d0 .. d7)] of [linux/uuid.h]: [a], [b] and [c] are laid
    out least significant byte first. *)
Definition UUID_LE (a b c d0 d1 d2 d3 d4 d5 d6 d7 : Z) : uuid_le :=
  [ Z.land a 255; Z.land (Z.shiftr a 8) 255;
    Z.land (Z.shiftr a 16) 255; Z.land (Z.shiftr a 24) 255;
    Z.land b 255; Z.land (Z.shiftr b 8) 255;
    Z.land c 255; Z.land (Z.shiftr c 8) 255;
    d0; d1; d2; d3; d4; d5; d6; d7 ].

(** [struct mei_client] of [linux/mei.h], the driver's answer to a connect
    request: [__u32 max_msg_length] and [__u8 protocol_version]. *)
Record mei_client := Mk_mei_client {
  max_msg_length : Z;
  protocol_version : Z
}.

(** [struct timeval]. *)
Record timeval := Mk_timeval {
  tv_sec : Z;
  tv_usec : Z
}.

(** [struct mei]: info on a mei client connection. *)
Record mei := Mk_mei {
  guid : uuid_le;
  initialized : bool;
  verbose : bool;
  buf_size : Z;
  prot_ver : Z;
  fd : Z
}.

Definition set_guid (v : uuid_le) (me : mei) : mei :=
  Mk_mei v (initialized me) (verbose me) (buf_size me) (prot_ver me) (fd me).
Definition set_initialized (v : bool) (me : mei) : mei :=
  Mk_mei (guid me) v (verbose me) (buf_size me) (prot_ver me) (fd me).
Definition set_verbose (v : bool) (me : mei) : mei :=
  Mk_mei (guid me) (initialized me) v (buf_size me) (prot_ver me) (fd me).
Definition set_buf_size (v : Z) (me : mei) : mei :=
  Mk_mei (guid me) (initialized me) (verbose me) v (prot_ver me) (fd me).
Definition set_prot_ver (v : Z) (me : mei) : mei :=
  Mk_mei (guid me) (initialized me) (verbose me) (buf_size me) v (fd me).
Definition set_fd (v : Z) (me : mei) : mei :=
  Mk_mei (guid me) (initialized me) (verbose me) (buf_size me) (prot_ver me) v.

(** [struct mkhi_host_if]: info on the MKHI connection.  Its third field is
    called [initialized] in C; here [hif_initialized], the name being taken
    by the field of [mei]. *)
Record mkhi_host_if := Mk_mkhi_host_if {
  mei_cl : mei;
  send_timeout : Z;
  hif_initialized : bool
}.

Definition set_mei_cl (v : mei) (a : mkhi_host_if) : mkhi_host_if :=
  Mk_mkhi_host_if v (send_timeout a) (hif_initialized a).
Definition set_send_timeout (v : Z) (a : mkhi_host_if) : mkhi_host_if :=
  Mk_mkhi_host_if (mei_cl a) v (hif_initialized a).
Definition set_hif_initialized (v : bool) (a : mkhi_host_if) : mkhi_host_if :=
  Mk_mkhi_host_if (mei_cl a) (send_timeout a) v.

(** [unsigned long] on the LP64 targets the MEI driver exists for. *)
Definition ulong_bits : Z := 64.
Definition wrap_ulong (z : Z) : Z := z mod 2 ^ ulong_bits.

(** [O_RDWR] of [fcntl.h]. *)
Definition O_RDWR : Z := 2.

(** ** System calls and the trace *)

(** What the program did to the outside world, with what came back. *)
Inductive event :=
| EvOpen (path : string) (flags : Z) (ret : Z)
| EvGeteuid (ret : Z)
| EvIoctlConnect (fd : Z) (in_client_uuid : uuid_le)
                 (ret : Z) (out_client_properties : mei_client)
| EvWrite (fd : Z) (buffer : list byte) (len : Z) (ret : Z) (errno : Z)
| EvSelect (nfds : Z) (fd : Z) (tv : timeval) (ret : Z) (isset : bool)
| EvRead (fd : Z) (len : Z) (ret : Z) (data : list byte) (errno : Z)
| EvClose (fd : Z)
| EvStderr (fmt : string) (args : list Z).

Definition trace := list event.

(** The operating system and the device behind it.  Every answer may depend
    on the whole history of events so far, so a device with state of its own
    is covered.
    - [os_open] gives the descriptor, or -1;
    - [os_ioctl_connect] gives the result of [IOCTL_MEI_CONNECT_CLIENT] and
      the client properties the driver wrote back;
    - [os_write] gives the result of [write] and the [errno] it left;
    - [os_select] gives the result of [select] on the read set holding one
      descriptor, and whether that descriptor is still in the set;
    - [os_read] gives the result of [read], the bytes delivered and [errno]. *)
Record os := Mk_os {
  os_open : trace -> string -> Z -> Z;
  os_geteuid : trace -> Z;
  os_ioctl_connect : trace -> Z -> uuid_le -> Z * mei_client;
  os_write : trace -> Z -> list byte -> Z -> Z * Z;
  os_select : trace -> Z -> Z -> timeval -> Z * bool;
  os_read : trace -> Z -> Z -> Z * list byte * Z
}.

(** How a computation over the struct [S] ends: it returns a value, or the
    process is ended by [exit].  Both carry the struct as it then is. *)
Inductive outcome (S A : Type) :=
| Returned (a : A) (s : S)
| Exited (status : Z) (s : S).

Arguments Returned {S A} a s.
Arguments Exited {S A} status s.

Definition final_state {S A} (o : outcome S A) : S :=
  match o with
  | Returned _ s => s
  | Exited _ s => s
  end.

(** A computation reads the history so far and the struct, and gives its
    outcome with the events it has added. *)
Definition M (S A : Type) : Type := trace -> S -> outcome S A * trace.

Definition ret {S A} (a : A) : M S A :=
  fun _ s => (Returned a s, []).

Definition bind {S A B} (m : M S A) (k : A -> M S B) : M S B :=
  fun h s =>
    match m h s with
    | (Returned a s1, e1) =>
        let '(o, e2) := k a (h ++ e1) s1 in (o, e1 ++ e2)
    | (Exited c s1, e1) => (Exited c s1, e1)
    end.

Notation "x <- m ;; k" := (bind m (fun x => k))
  (at level 61, m at next level, right associativity).
Notation "' p <- m ;; k" := (bind m (fun x => match x with p => k end))
  (at level 61, p pattern, m at next level, right associativity).
Notation "m ;; k" := (bind m (fun _ => k))
  (at level 61, right associativity).

Definition gets {S A} (f : S -> A) : M S A :=
  fun _ s => (Returned (f s) s, []).

Definition modify {S} (f : S -> S) : M S unit :=
  fun _ s => (Returned tt (f s), []).

(** [exit(status)]: nothing after it runs. *)
Definition exit {S} (status : Z) : M S unit :=
  fun _ s => (Exited status s, []).

(** Runs a computation on the [mei_cl] field of a [struct mkhi_host_if], as a
    call with [&acmd->mei_cl] does. *)
Definition on_mei_cl {A} (m : M mei A) : M mkhi_host_if A :=
  fun h acmd =>
    match m h (mei_cl acmd) with
    | (Returned a me, e) => (Returned a (set_mei_cl me acmd), e)
    | (Exited c me, e) => (Exited c (set_mei_cl me acmd), e)
    end.

(** [read] stores the bytes it delivers at the start of the caller's buffer
    and leaves the rest of the buffer alone. *)
Definition overwrite (buffer data : list byte) : list byte :=
  data ++ skipn (List.length data) buffer.

Section Syscalls.

Variable sys : os.
Context {S : Type}.

Definition sys_open (path : string) (flags : Z) : M S Z :=
  fun h s => let r := os_open sys h path flags in
             (Returned r s, [EvOpen path flags r]).

Definition sys_geteuid : M S Z :=
  fun h s => let r := os_geteuid sys h in (Returned r s, [EvGeteuid r]).

Definition sys_ioctl_connect (fd : Z) (uuid : uuid_le) : M S (Z * mei_client) :=
  fun h s => let r := os_ioctl_connect sys h fd uuid in
             (Returned r s, [EvIoctlConnect fd uuid (fst r) (snd r)]).

Definition sys_write (fd : Z) (buffer : list byte) (len : Z) : M S (Z * Z) :=
  fun h s => let r := os_write sys h fd buffer len in
             (Returned r s, [EvWrite fd buffer len (fst r) (snd r)]).

Definition sys_select (nfds fd : Z) (tv : timeval) : M S (Z * bool) :=
  fun h s => let r := os_select sys h nfds fd tv in
             (Returned r s, [EvSelect nfds fd tv (fst r) (snd r)]).

(** Gives the result, the caller's buffer as [read] leaves it, and
    [errno]. *)
Definition sys_read (fd : Z) (buffer : list byte) (len : Z)
  : M S (Z * list byte * Z) :=
  fun h s =>
    let '(rc, data, errno) := os_read sys h fd len in
    let buffer' :=
      if rc <? 0 then buffer
      else overwrite buffer (firstn (Z.to_nat rc) data) in
    (Returned (rc, buffer', errno) s, [EvRead fd len rc data errno]).

Definition sys_close (fd : Z) : M S unit :=
  fun _ s => (Returned tt s, [EvClose fd]).

Definition fprintf_stderr (fmt : string) (args : list Z) : M S unit :=
  fun _ s => (Returned tt s, [EvStderr fmt args]).

End Syscalls.

(** ** The program *)

(** The macro [mei_msg]: printed only when the session is verbose. *)
Definition mei_msg (fmt : string) (args : list Z) : M mei unit :=
  v <- gets verbose ;;
  if v then fprintf_stderr fmt args else ret tt.

(** The macro [mei_err]. *)
Definition mei_err {S} (fmt : string) (args : list Z) : M S unit :=
  fprintf_stderr (String.append "Error: " fmt) args.

(** The format strings of the error messages. *)
Definition msg_no_handle : string :=
  "Cannot establish a handle to the Intel(R) MEI driver. \n".
Definition msg_need_root : string :=
  "Please run this program with root privilege.\n".
Definition msg_ioctl_failed : string :=
  "IOCTL_MEI_CONNECT_CLIENT receive message. err=%d\n".
Definition msg_version_unsupported : string :=
  "Intel(R) MEI protocol version not supported\n".
Definition msg_read_failed : string :=
  "read failed with status %zd %s\n".
Definition msg_write_failed : string :=
  "write failed with status %zd %s\n".
Definition msg_write_timeout : string :=
  "write failed on timeout with status\n".
Definition msg_select_failed : string :=
  "write failed on select with status %zd\n".

Definition mei_deinit : M mei unit :=
  cl_fd <- gets fd ;;
  (if negb (cl_fd =? -1) then sys_close cl_fd else ret tt) ;;
  modify (set_fd (-1)) ;;
  modify (set_buf_size 0) ;;
  modify (set_prot_ver 0) ;;
  modify (set_initialized false).

(** Reads [me->guid]; [mei_init] has a parameter of the field's name. *)
Definition get_guid : M mei uuid_le := gets guid.

Section Program.

Variable sys : os.

Definition mei_init (guid : uuid_le) (req_protocol_version : Z)
           (verbose : bool) : M mei bool :=
  let err : M mei bool := mei_deinit ;; ret false in
  modify (set_verbose verbose) ;;
  r <- sys_open sys "/dev/mei0" O_RDWR ;;
  modify (set_fd r) ;;
  me_fd <- gets fd ;;
  if me_fd =? -1 then
    euid <- sys_geteuid sys ;;
    (if euid =? 0 then
       mei_err msg_no_handle [] ;;
       exit (-1)
     else
       mei_err msg_need_root [] ;;
       mei_deinit ;;
       exit (-1)) ;;
    err
  else
    modify (set_guid guid) ;;
    modify (set_initialized true) ;;
    me_guid <- get_guid ;;
    '(result, cl) <- sys_ioctl_connect sys me_fd me_guid ;;
    if negb (result =? 0) then
      mei_err msg_ioctl_failed [result] ;;
      err
    else
      mei_msg "max_message_length %d\n" [max_msg_length cl] ;;
      mei_msg "protocol_version %d\n" [protocol_version cl] ;;
      if (req_protocol_version >? 0)
         && negb (protocol_version cl =? req_protocol_version) then
        mei_err msg_version_unsupported [] ;;
        err
      else
        modify (set_buf_size (max_msg_length cl)) ;;
        modify (set_prot_ver (protocol_version cl)) ;;
        ret true.

(** Gives the result and the caller's buffer as the call leaves it. *)
Definition mei_recv_msg (buffer : list byte) (len : Z) (timeout : Z)
  : M mei (Z * list byte) :=
  mei_msg "call read length = %zd\n" [len] ;;
  me_fd <- gets fd ;;
  '(rc, buffer', errno) <- sys_read sys me_fd buffer len ;;
  (if rc <? 0 then
     mei_err msg_read_failed [rc; errno] ;;
     mei_deinit
   else
     mei_msg "read succeeded with result %zd\n" [rc]) ;;
  ret (rc, buffer').

(** The [struct timeval] that [mei_send_msg] builds from its [timeout], an
    [unsigned long]: division and remainder are those of C on such a value,
    and the product is taken in [unsigned long]. *)
Definition send_timeval (timeout : Z) : timeval :=
  {| tv_sec := timeout / 1000;
     tv_usec := wrap_ulong ((timeout mod 1000) * 1000000) |}.

Definition mei_send_msg (buffer : list byte) (len : Z) (timeout : Z)
  : M mei Z :=
  let out (rc : Z) : M mei Z :=
    (if rc <? 0 then mei_deinit else ret tt) ;;
    ret rc in
  let tv := send_timeval timeout in
  mei_msg "call write length = %zd\n" [len] ;;
  me_fd <- gets fd ;;
  '(written, errno) <- sys_write sys me_fd buffer len ;;
  if written <? 0 then
    let rc := - errno in
    mei_err msg_write_failed [written; errno] ;;
    out rc
  else
    me_fd <- gets fd ;;
    '(rc, isset) <- sys_select sys (me_fd + 1) me_fd tv ;;
    if (rc >? 0) && isset then
      mei_msg "write success\n" [] ;;
      let rc := written in
      out rc
    else if rc =? 0 then
      mei_err msg_write_timeout [] ;;
      out rc
    else
      mei_err msg_select_failed [rc] ;;
      out rc.

Definition MEI_MKHI_HIF_FIX : uuid_le :=
  UUID_LE 0x55213584 0x9a29 0x4916 0xba 0xdf 0xf 0xb7 0xed 0x68 0x2a 0xeb.

Definition mkhi_host_if_fix_init (send_timeout : Z) (verbose : bool)
  : M mkhi_host_if bool :=
  modify (set_send_timeout
            (if negb (send_timeout =? 0) then send_timeout else 20000)) ;;
  r <- on_mei_cl (mei_init MEI_MKHI_HIF_FIX 0 verbose) ;;
  modify (set_hif_initialized r) ;;
  gets hif_initialized.

End Program.

(** ** A caller of the session

    The life of a session as a caller drives it: any sequence of the four
    operations on one [struct mei].  [main] is one such caller. *)

Inductive op :=
| OpInit (guid : uuid_le) (req_protocol_version : Z) (verbose : bool)
| OpSend (buffer : list byte) (len timeout : Z)
| OpRecv (buffer : list byte) (len timeout : Z)
| OpDeinit.

Definition run_op (sys : os) (o : op) : M mei unit :=
  match o with
  | OpInit g v b => mei_init sys g v b ;; ret tt
  | OpSend b l t => mei_send_msg sys b l t ;; ret tt
  | OpRecv b l t => mei_recv_msg sys b l t ;; ret tt
  | OpDeinit => mei_deinit
  end.

Fixpoint run_ops (sys : os) (ops : list op) : M mei unit :=
  match ops with
  | [] => ret tt
  | o :: rest => run_op sys o ;; run_ops sys rest
  end.

(** ** Observations on states and traces *)

(** The state [mei_deinit] leaves: the spec's Uninitialized. *)
Definition teardown (me : mei) : mei :=
  Mk_mei (guid me) false (verbose me) 0 0 (-1).

Definition Uninitialized (me : mei) : Prop :=
  initialized me = false /\ fd me = -1.

(** The descriptors a trace closes, in order. *)
Fixpoint closes (e : trace) : list Z :=
  match e with
  | [] => []
  | EvClose f :: rest => f :: closes rest
  | _ :: rest => closes rest
  end.

(** The transfer calls ([write], [select], [read]) of a trace. *)
Definition is_io (ev : event) : bool :=
  match ev with
  | EvWrite _ _ _ _ _ | EvSelect _ _ _ _ _ | EvRead _ _ _ _ _ => true
  | _ => false
  end.

Definition io_attempts (e : trace) : trace := filter is_io e.

(** The messages a trace prints on [stderr] through [mei_err]. *)
Definition reports (e : trace) (fmt : string) : Prop :=
  exists args, In (EvStderr (String.append "Error: " fmt) args) e.

(** The client properties of the last connect request that the driver
    accepted, if there was one. *)
Fixpoint last_connect (h : trace) : option mei_client :=
  match h with
  | [] => None
  | ev :: rest =>
      match last_connect rest with
      | Some cl => Some cl
      | None =>
          match ev with
          | EvIoctlConnect _ _ r cl => if r =? 0 then Some cl else None
          | _ => None
          end
      end
  end.

(** Invariant I1 of the session, on the struct and the history that led to
    it: an initialized session holds a descriptor and the parameters of the
    driver's last accepted connect request. *)
Definition I1 (h : trace) (me : mei) : Prop :=
  initialized me = true ->
  fd me <> -1 /\
  exists cl, last_connect h = Some cl /\
             buf_size me = max_msg_length cl /\
             prot_ver me = protocol_version cl.

(** ** Mock devices

    Canned answers, for running the program on concrete inputs.  As the
    kernel does, the mock refuses a transfer on the descriptor -1 with
    [EBADF]. *)

Definition EBADF : Z := 9.
Definition EIO : Z := 5.

Record mock := Mk_mock {
  mock_open : Z;
  mock_euid : Z;
  mock_connect : Z * mei_client;
  mock_write : Z * Z;
  mock_select : Z * bool;
  mock_read : Z * list byte * Z
}.

Definition mock_os (m : mock) : os :=
  {| os_open := fun _ _ _ => mock_open m;
     os_geteuid := fun _ => mock_euid m;
     os_ioctl_connect := fun _ _ _ => mock_connect m;
     os_write := fun _ f _ _ => if f =? -1 then (-1, EBADF) else mock_write m;
     os_select := fun _ _ f _ =>
                    if f =? -1 then (-1, false) else mock_select m;
     os_read := fun _ f _ =>
                  if f =? -1 then (-1, [], EBADF) else mock_read m |}.

(** The four bytes of [GEN_GET_FW_VERSION] as [main] sends them. *)
Definition fw_version_request : list byte := [xff; x02; x00; x00].

(** A device that accepts the connect, takes the four bytes, confirms, and
    answers with four bytes. *)
Definition mock_good : mock :=
  {| mock_open := 3;
     mock_euid := 0;
     mock_connect := (0, Mk_mei_client 512 1);
     mock_write := (4, 0);
     mock_select := (1, true);
     mock_read := (4, [xff; x82; x00; x00], 0) |}.

Definition with_select (r : Z * bool) (m : mock) : mock :=
  Mk_mock (mock_open m) (mock_euid m) (mock_connect m) (mock_write m) r
          (mock_read m).
Definition with_write (r : Z * Z) (m : mock) : mock :=
  Mk_mock (mock_open m) (mock_euid m) (mock_connect m) r (mock_select m)
          (mock_read m).
Definition with_read (r : Z * list byte * Z) (m : mock) : mock :=
  Mk_mock (mock_open m) (mock_euid m) (mock_connect m) (mock_write m)
          (mock_select m) r.
Definition with_open (r euid : Z) (m : mock) : mock :=
  Mk_mock r euid (mock_connect m) (mock_write m) (mock_select m)
          (mock_read m).
Definition with_connect (r : Z * mei_client) (m : mock) : mock :=
  Mk_mock (mock_open m) (mock_euid m) r (mock_write m) (mock_select m)
          (mock_read m).

(** A session as a successful [mei_init] on [mock_good] leaves it, and a
    session after [mei_deinit]. *)
Definition me_ready : mei := Mk_mei MEI_MKHI_HIF_FIX true false 512 1 3.
Definition me_closed : mei := teardown me_ready.

(** A caller that connects, sends the version request and receives the
    answer. *)
Definition session_ops : list op :=
  [ OpInit MEI_MKHI_HIF_FIX 0 false;
    OpSend fw_version_request 4 5000;
    OpRecv [x00; x00; x00; x00; x00; x00] 6 5000 ].


(** ** The MKHI messages and [main]

    The rest of the file: the MKHI header, the firmware version request and
    its response, and [main], the one caller of the session in the
    program. *)

(** [MKHI_MESSAGE_HEADER]: five bit-fields of 8, 7, 1, 8 and 8 bits in one
    [uint32_t]. *)
Record MKHI_MESSAGE_HEADER := Mk_MKHI_MESSAGE_HEADER {
  GroupId : Z;
  Command : Z;
  IsResponse : Z;
  Reserved : Z;
  Result : Z
}.

(** The command [GEN_GET_FW_VERSION]. *)
Definition GEN_GET_FW_VERSION : MKHI_MESSAGE_HEADER :=
  {| GroupId := 0xff; Command := 0x2; IsResponse := 0; Reserved := 0;
     Result := 0 |}.

(** The [uint32_t] that holds the bit-fields, as the compilers for the x86
    hosts of the MEI driver allocate them: the first field in the least
    significant bits, each field cut to its width. *)
Definition header_word (hd : MKHI_MESSAGE_HEADER) : Z :=
  Z.lor (Z.land (GroupId hd) 0xff)
    (Z.lor (Z.shiftl (Z.land (Command hd) 0x7f) 8)
       (Z.lor (Z.shiftl (Z.land (IsResponse hd) 0x1) 15)
          (Z.lor (Z.shiftl (Z.land (Reserved hd) 0xff) 16)
             (Z.shiftl (Z.land (Result hd) 0xff) 24)))).

Definition byte_of_Z (z : Z) : byte :=
  match Byte.of_N (Z.to_N (Z.land z 0xff)) with
  | Some b => b
  | None => x00
  end.

Definition Z_of_byte (b : byte) : Z := Z.of_N (Byte.to_N b).

(** The bytes of a header in memory, and so on the wire when [main] hands
    [&GEN_GET_FW_VERSION] to [mei_send_msg]: the word, least significant
    byte first. *)
Definition header_bytes (hd : MKHI_MESSAGE_HEADER) : list byte :=
  let w := header_word hd in
  [ byte_of_Z w; byte_of_Z (Z.shiftr w 8);
    byte_of_Z (Z.shiftr w 16); byte_of_Z (Z.shiftr w 24) ].

(** [sizeof(GEN_GET_FW_VERSION)] and
    [sizeof(GEN_GET_FW_VERSION_Response)]: the header, and the header with
    eight [uint16_t]. *)
Definition sizeof_MKHI_MESSAGE_HEADER : Z := 4.
Definition sizeof_GEN_GET_FW_VERSION_Response : Z := 4 + 8 * 2.

(** A [uint16_t] field at byte offset [off] of a struct in memory. *)
Definition uint16_at (mem : list byte) (off : nat) : Z :=
  Z.lor (Z_of_byte (nth off mem x00))
        (Z.shiftl (Z_of_byte (nth (off + 1) mem x00)) 8).

(** The fields of [GEN_GET_FW_VERSION_Response] that [main] prints, read
    from the memory of the struct: the header takes bytes 0 to 3, the fields
    follow in the order of their declaration. *)
Definition CodeMinor (resp : list byte) : Z := uint16_at resp 4.
Definition CodeMajor (resp : list byte) : Z := uint16_at resp 6.
Definition CodeBuild (resp : list byte) : Z := uint16_at resp 8.
Definition CodeHotfix (resp : list byte) : Z := uint16_at resp 10.

(** The locals of [main], with what it has printed on [stdout]: [mkhi_cmd]
    and [resp] are not initialized by [main], so they start with whatever the
    stack holds. *)
Record main_frame := Mk_main_frame {
  mkhi_cmd : mkhi_host_if;
  resp : list byte;
  stdout : list (string * list Z)
}.

Definition set_mkhi_cmd (v : mkhi_host_if) (f : main_frame) : main_frame :=
  Mk_main_frame v (resp f) (stdout f).
Definition set_resp (v : list byte) (f : main_frame) : main_frame :=
  Mk_main_frame (mkhi_cmd f) v (stdout f).

(** Runs a computation on [mkhi_cmd], as a call with [&mkhi_cmd] does. *)
Definition on_mkhi_cmd {A} (m : M mkhi_host_if A) : M main_frame A :=
  fun h f =>
    match m h (mkhi_cmd f) with
    | (Returned a c, e) => (Returned a (set_mkhi_cmd c f), e)
    | (Exited st c, e) => (Exited st (set_mkhi_cmd c f), e)
    end.

Definition printf (fmt : string) (args : list Z) : M main_frame unit :=
  modify (fun f => Mk_main_frame (mkhi_cmd f) (resp f)
                                 (stdout f ++ [(fmt, args)])).

Definition msg_failed_to_initialise : string :=
  "MKHI fixed i/f failed to initialise \n".
Definition msg_initialised : string :=
  "MKHI fixed i/f initialised \n".
Definition msg_version : string :=
  "Build Maj Min Hotfix : %x, %x, %x, %x \n".

(** The part of [main] from the declaration of [mkhi_cmd] to its end: all of
    [main] but the three [stdio] statements it starts with, which touch
    neither [mkhi_cmd] nor [resp].  Gives the value [main] returns: [false],
    that is 0, when the interface did not initialise, and 0 at its end. *)
Definition main_from_mkhi_cmd (sys : os) : M main_frame Z :=
  heci_init_call <- on_mkhi_cmd (mkhi_host_if_fix_init sys 5000 true) ;;
  if negb heci_init_call then
    printf msg_failed_to_initialise [] ;;
    on_mkhi_cmd (on_mei_cl mei_deinit) ;;
    ret 0
  else
    printf msg_initialised [] ;;
    on_mkhi_cmd
      (on_mei_cl
         (mei_send_msg sys (header_bytes GEN_GET_FW_VERSION)
                       sizeof_MKHI_MESSAGE_HEADER 5000)) ;;
    buffer <- gets resp ;;
    '(_, buffer') <-
      on_mkhi_cmd
        (on_mei_cl
           (mei_recv_msg sys buffer sizeof_GEN_GET_FW_VERSION_Response
                         5000)) ;;
    modify (set_resp buffer') ;;
    on_mkhi_cmd (on_mei_cl mei_deinit) ;;
    r <- gets resp ;;
    printf msg_version [CodeBuild r; CodeMajor r; CodeMinor r; CodeHotfix r] ;;
    ret 0.

(** The [stdio] calls of [main], with what came back: for [fopen], whether it
    gave a stream or [NULL]; for [fwrite], the count of items written. *)
Inductive stdio_event :=
| EvFopen (path mode : string) (stream : bool)
| EvFwrite (data : string) (size nmemb : Z) (ret : Z)
| EvFclose.

(** The C library under [main]: the answers of [fopen] and [fwrite]. *)
Record stdio := Mk_stdio {
  io_fopen : string -> string -> bool;
  io_fwrite : string -> Z -> Z -> Z
}.

(** How [main] ends.  [main] hands the result of [fopen] to [fwrite] without
    a test; with [NULL] the behaviour of [fwrite] is not defined and the run
    is followed no further.  Otherwise the three [stdio] calls are made and
    the rest of [main] runs to its outcome. *)
Inductive main_end :=
| Undefined (pre : list stdio_event)
| Ran (pre : list stdio_event) (o : outcome main_frame Z) (e : trace).

Definition allow_fixed_address : string :=
  "/sys/kernel/debug/mei0/allow_fixed_address".

(** [main].  The [ret] it computes from [fwrite] is never read. *)
Definition main (io : stdio) (sys : os) (h : trace) (frame : main_frame)
  : main_end :=
  let fp := io_fopen io allow_fixed_address "w" in
  if fp then
    let n := io_fwrite io "Y" 1 1 in
    let ret := if n =? 1 then 0 else -1 in
    let '(o, e) := main_from_mkhi_cmd sys h frame in
    Ran [EvFopen allow_fixed_address "w" true; EvFwrite "Y" 1 1 n; EvFclose]
        o e
  else
    Undefined [EvFopen allow_fixed_address "w" false].

(** ** More observations *)

(** The descriptors a trace opens, in order: the results of [open] other
    than -1. *)
Fixpoint opens (e : trace) : list Z :=
  match e with
  | [] => []
  | EvOpen _ _ r :: rest => if r =? -1 then opens rest else r :: opens rest
  | _ :: rest => opens rest
  end.

(** Takes one occurrence of [f] out of [held], if there is one. *)
Fixpoint release (f : Z) (held : list Z) : option (list Z) :=
  match held with
  | [] => None
  | g :: rest =>
      if g =? f then Some rest
      else match release f rest with
           | Some rest' => Some (g :: rest')
           | None => None
           end
  end.

(** The descriptor discipline of a process: every [open] that succeeds adds
    its descriptor to the ones held, every [close] must release one that is
    held.  Gives the descriptors held after the trace, or [None] if the trace
    closes a descriptor that is not held (a double close, or the close of a
    descriptor that was never opened). *)
Fixpoint fd_protocol (held : list Z) (e : trace) : option (list Z) :=
  match e with
  | [] => Some held
  | EvOpen _ _ r :: rest =>
      fd_protocol (if r =? -1 then held else r :: held) rest
  | EvClose f :: rest =>
      match release f held with
      | Some held' => fd_protocol held' rest
      | None => None
      end
  | _ :: rest => fd_protocol held rest
  end.

(** The session holds no descriptor, or one that the process holds. *)
Definition holds_fd (held : list Z) (me : mei) : Prop :=
  fd me = -1 \/ In (fd me) held.

(** The milliseconds a [timeval] stands for. *)
Definition timeval_ms (tv : timeval) : Z :=
  tv_sec tv * 1000 + tv_usec tv / 1000.

(** The lines a trace prints on [stderr]. *)
Definition is_stderr (ev : event) : bool :=
  match ev with
  | EvStderr _ _ => true
  | _ => false
  end.

Definition stderr_lines (e : trace) : trace := filter is_stderr e.

(** The answer of the firmware to the version request: a header with the
    response bit, then version 11.8.50.3399 twice. *)
Definition fw_version_response : list byte :=
  [ xff; x82; x00; x00;
    x08; x00; x0b; x00; x47; x0d; x32; x00;
    x08; x00; x0b; x00; x47; x0d; x32; x00 ].

(** What the stack of [main] may hold on entry. *)
Definition frame_garbage : main_frame :=
  {| mkhi_cmd := Mk_mkhi_host_if (Mk_mei [] true false 77 7 42) 1 true;
     resp := repeat xaa 20;
     stdout := [] |}.





(** A C library whose [fopen] and [fwrite] succeed, and one whose [fopen]
    fails. *)
Definition stdio_good : stdio :=
  {| io_fopen := fun _ _ => true; io_fwrite := fun _ _ n => n |}.
Definition stdio_no_debugfs : stdio :=
  {| io_fopen := fun _ _ => false; io_fwrite := fun _ _ _ => 0 |}.

(** * Properties *)

(** ** Running the monad *)

Ltac unfold_monad :=
  unfold mei_msg, mei_err, get_guid, on_mei_cl, bind, ret, gets, modify, exit,
    sys_open, sys_geteuid, sys_ioctl_connect, sys_write, sys_select, sys_read,
    sys_close, fprintf_stderr in *.

Arguments String.append : simpl never.

(** Takes the next answer of the oracle, or the next test of the program,
    apart. *)
Ltac step :=
  match goal with
  | |- context [os_write ?s ?h ?f ?b ?l] =>
      destruct (os_write s h f b l) as [? ?] eqn:?
  | |- context [os_select ?s ?h ?n ?f ?t] =>
      destruct (os_select s h n f t) as [? ?] eqn:?
  | |- context [os_read ?s ?h ?f ?l] =>
      destruct (os_read s h f l) as [[? ?] ?] eqn:?
  | |- context [os_ioctl_connect ?s ?h ?f ?u] =>
      destruct (os_ioctl_connect s h f u) as [? ?] eqn:?
  | |- context [verbose ?m] => destruct (verbose m) eqn:?
  | |- context [?x =? ?y] => destruct (Z.eqb_spec x y)
  | |- context [?x <? ?y] => destruct (Z.ltb_spec x y)
  | |- context [?x >? ?y] => rewrite (Z.gtb_ltb x y)
  | |- context [if ?b then _ else _] => destruct b eqn:?
  end; cbn; try lia.

(** Reads an event off a concrete trace. *)
Ltac pick H :=
  cbn in H;
  repeat (destruct H as [H|H]; [try discriminate H|]);
  try contradiction;
  try (inversion H; subst; clear H).

Ltac run_send := unfold mei_send_msg; unfold_monad; cbn.
Ltac run_recv := unfold mei_recv_msg; unfold_monad; cbn.

(** [mei_deinit] in closed form: it returns, leaves the torn-down struct, and
    closes the descriptor if there is one. *)
Lemma mei_deinit_run (h : trace) (me : mei) :
  mei_deinit h me =
  (Returned tt (teardown me),
   if fd me =? -1 then [] else [EvClose (fd me)]).
Proof.
  unfold mei_deinit; unfold_monad.
  destruct (fd me =? -1); reflexivity.
Qed.

Lemma teardown_Uninitialized (me : mei) : Uninitialized (teardown me).
Proof. split; reflexivity. Qed.

Lemma teardown_teardown (me : mei) : teardown (teardown me) = teardown me.
Proof. reflexivity. Qed.

Lemma closes_app (e1 e2 : trace) : closes (e1 ++ e2) = closes e1 ++ closes e2.
Proof.
  induction e1 as [|ev e1 IH]; simpl; [reflexivity|].
  destruct ev; simpl; rewrite ?IH; reflexivity.
Qed.

(** ** Close *)

(** C4. Close is idempotent: [mei_deinit] leaves the descriptor -1, and a
    second [mei_deinit], whatever happened in between outside the session,
    returns the very same struct and performs no event at all, so no second
    [close]. *)
Theorem mei_deinit_idempotent (h : trace) (me : mei) :
  exists me1 e1,
    mei_deinit h me = (Returned tt me1, e1) /\
    fd me1 = -1 /\
    closes e1 = (if fd me =? -1 then [] else [fd me]) /\
    forall h', mei_deinit h' me1 = (Returned tt me1, []).
Proof.
  exists (teardown me), (if fd me =? -1 then [] else [EvClose (fd me)]).
  split; [apply mei_deinit_run|].
  split; [reflexivity|].
  split; [destruct (fd me =? -1); reflexivity|].
  intros h'. rewrite mei_deinit_run. reflexivity.
Qed.

(** ** The deadline of receive *)

(** C6. [mei_recv_msg] never looks at its [timeout]: two calls that differ
    in it only give the same result, the same buffer, the same struct and the
    same events.  Nor does it wait on the descriptor at all: its only
    transfer call is the one [read]. *)
Theorem mei_recv_msg_ignores_timeout
        (sys : os) (h : trace) (me : mei) (buffer : list byte)
        (len t1 t2 : Z) :
  mei_recv_msg sys buffer len t1 h me = mei_recv_msg sys buffer len t2 h me /\
  exists rc data errno,
    io_attempts (snd (mei_recv_msg sys buffer len t1 h me))
    = [EvRead (fd me) len rc data errno].
Proof.
  split; [reflexivity|].
  run_recv. repeat step.
  all: eexists; eexists; eexists; reflexivity.
Qed.

(** ** The MKHI initializer *)

(** C10. Whatever [mei_init] does, return or exit, the struct holds the
    caller's [send_timeout] if that is not 0, and 20000 if it is. *)
Theorem mkhi_host_if_fix_init_send_timeout
        (sys : os) (h : trace) (acmd : mkhi_host_if) (timeout : Z)
        (verbose : bool) :
  send_timeout
    (final_state (fst (mkhi_host_if_fix_init sys timeout verbose h acmd)))
  = if timeout =? 0 then 20000 else timeout.
Proof.
  unfold mkhi_host_if_fix_init.
  unfold on_mei_cl, bind at 1 2 3, modify, gets.
  match goal with
  | |- context [mei_init ?s ?g ?r ?v ?hh ?m] =>
      destruct (mei_init s g r v hh m) as [[b me'|c me'] e]
  end; simpl; destruct (timeout =? 0); reflexivity.
Qed.

(** ** The wait of send *)

(** Within the range of [unsigned long] the product does not wrap. *)
Lemma send_timeval_usec (timeout : Z) :
  tv_usec (send_timeval timeout) = (timeout mod 1000) * 1000000.
Proof.
  unfold send_timeval, wrap_ulong, ulong_bits; simpl tv_usec.
  apply Z.mod_small.
  pose proof (Z.mod_pos_bound timeout 1000 ltac:(lia)).
  change (2 ^ 64) with 18446744073709551616. lia.
Qed.

(** The wait is the deadline exactly when the deadline is whole seconds. *)
Lemma send_timeval_exact_iff (timeout : Z) :
  tv_sec (send_timeval timeout) * 1000 + tv_usec (send_timeval timeout) / 1000
  = timeout <-> timeout mod 1000 = 0.
Proof.
  rewrite send_timeval_usec. unfold send_timeval; simpl tv_sec.
  pose proof (Z.mod_pos_bound timeout 1000 ltac:(lia)) as Hb.
  pose proof (Z.div_mod timeout 1000 ltac:(lia)) as Hd.
  replace (timeout mod 1000 * 1000000) with ((timeout mod 1000 * 1000) * 1000)
    by lia.
  rewrite Z.div_mul by lia. lia.
Qed.

(** C7. For the deadline 1500 ms [mei_send_msg] hands [select] one second
    and 500000000 microseconds: neither 1500 ms in all, nor a microsecond
    field below 1000000. The factor in the source is 1000000 where
    milliseconds to microseconds is 1000. *)
Theorem send_timeval_1500 :
  send_timeval 1500 = {| tv_sec := 1; tv_usec := 500000000 |} /\
  tv_sec (send_timeval 1500) * 1000 + tv_usec (send_timeval 1500) / 1000
    = 501000 /\
  ~ (tv_usec (send_timeval 1500) < 1000000) /\
  exists rc isset,
    In (EvSelect 4 3 (send_timeval 1500) rc isset)
       (snd (mei_send_msg (mock_os mock_good) fw_version_request 4 1500 []
                          me_ready)).
Proof.
  split; [reflexivity|]. split; [reflexivity|]. split.
  - vm_compute. intros H; discriminate H.
  - exists 1, true. vm_compute. right; left; reflexivity.
Qed.

(** ** Transfers *)

(** Whatever the device does, [mei_send_msg] returns, and leaves the struct
    as it was or torn down; the latter exactly on a negative result. *)
Lemma mei_send_msg_returns
      (sys : os) (h : trace) (me : mei) (buffer : list byte)
      (len timeout : Z) :
  exists rc e,
    mei_send_msg sys buffer len timeout h me
    = (Returned rc (if rc <? 0 then teardown me else me), e) /\
    closes e = (if (rc <? 0) && negb (fd me =? -1) then [fd me] else []).
Proof.
  run_send. repeat step.
  all: match goal with
       | |- exists _ _, (Returned ?rc _, _) = _ /\ _ => exists rc
       end; eexists.
  all: match goal with
       | |- (Returned ?rc _, _) = _ /\ _ =>
           destruct (Z.ltb_spec rc 0); try lia
       end.
  all: destruct (Z.eqb_spec (fd me) (-1)); try congruence.
  all: split; reflexivity.
Qed.

(** The same for [mei_recv_msg]. *)
Lemma mei_recv_msg_returns
      (sys : os) (h : trace) (me : mei) (buffer : list byte)
      (len timeout : Z) :
  exists rc buffer' e,
    mei_recv_msg sys buffer len timeout h me
    = (Returned (rc, buffer') (if rc <? 0 then teardown me else me), e) /\
    closes e = (if (rc <? 0) && negb (fd me =? -1) then [fd me] else []).
Proof.
  run_recv. repeat step.
  all: match goal with
       | |- exists _ _ _, (Returned (?rc, _) _, _) = _ /\ _ => exists rc
       end; eexists; eexists.
  all: match goal with
       | |- (Returned (?rc, _) _, _) = _ /\ _ =>
           destruct (Z.ltb_spec rc 0); try lia
       end.
  all: destruct (Z.eqb_spec (fd me) (-1)); try congruence.
  all: split; reflexivity.
Qed.





(** ** Fatal transfer errors *)

(** A failed [write] tears the session down and closes its descriptor
    once. *)
Lemma mei_send_msg_write_failed
      (sys : os) (h : trace) (me : mei) (buffer : list byte)
      (len timeout written errno : Z) :
  In (EvWrite (fd me) buffer len written errno)
     (snd (mei_send_msg sys buffer len timeout h me)) ->
  written < 0 -> 0 < errno -> fd me <> -1 ->
  fst (mei_send_msg sys buffer len timeout h me)
  = Returned (- errno) (teardown me) /\
  closes (snd (mei_send_msg sys buffer len timeout h me)) = [fd me].
Proof.
  run_send. repeat step.
  all: intros Hw ? ? ?; pick Hw; try lia; try congruence.
  all: split; reflexivity.
Qed.

(** So does a negative result of [select]. *)
Lemma mei_send_msg_select_failed
      (sys : os) (h : trace) (me : mei) (buffer : list byte)
      (len timeout rc : Z) (isset : bool) :
  In (EvSelect (fd me + 1) (fd me) (send_timeval timeout) rc isset)
     (snd (mei_send_msg sys buffer len timeout h me)) ->
  rc < 0 -> fd me <> -1 ->
  fst (mei_send_msg sys buffer len timeout h me)
  = Returned rc (teardown me) /\
  closes (snd (mei_send_msg sys buffer len timeout h me)) = [fd me].
Proof.
  run_send. repeat step.
  all: intros Hs ? ?; pick Hs; try lia; try congruence.
  all: split; reflexivity.
Qed.

(** So does a failed [read]. *)
Lemma mei_recv_msg_read_failed
      (sys : os) (h : trace) (me : mei) (buffer data : list byte)
      (len timeout rc errno : Z) :
  In (EvRead (fd me) len rc data errno)
     (snd (mei_recv_msg sys buffer len timeout h me)) ->
  rc < 0 -> fd me <> -1 ->
  fst (mei_recv_msg sys buffer len timeout h me)
  = Returned (rc, buffer) (teardown me) /\
  closes (snd (mei_recv_msg sys buffer len timeout h me)) = [fd me].
Proof.
  run_recv. repeat step.
  all: intros Hr ? ?; pick Hr; try lia; try congruence.
  all: split; reflexivity.
Qed.

(** A timeout does not: when [select] returns 0, [mei_send_msg] prints its
    message and goes to [out] with [rc] 0, where only a negative [rc] runs
    [mei_deinit].  The call returns 0 and the session stays as it was. *)
Lemma mei_send_msg_timeout
      (sys : os) (h : trace) (me : mei) (buffer : list byte)
      (len timeout : Z) (isset : bool) :
  In (EvSelect (fd me + 1) (fd me) (send_timeval timeout) 0 isset)
     (snd (mei_send_msg sys buffer len timeout h me)) ->
  fst (mei_send_msg sys buffer len timeout h me) = Returned 0 me /\
  closes (snd (mei_send_msg sys buffer len timeout h me)) = [] /\
  reports (snd (mei_send_msg sys buffer len timeout h me)) msg_write_timeout.
Proof.
  run_send. unfold reports. repeat step.
  all: intros Hs; pick Hs; try lia.
  all: split; [reflexivity|split; [reflexivity|]].
  all: exists []; cbn; auto 6.
Qed.

(** C1. On an initialized session whose [write] takes the four bytes and
    whose [select] reports no event at the deadline of 5000 ms,
    [mei_send_msg] prints the timeout message and returns 0; the session is
    still initialized, still holds descriptor 3, and nothing was closed. *)
Theorem mei_send_msg_timeout_keeps_session :
  initialized me_ready = true /\
  mei_send_msg (mock_os (with_select (0, false) mock_good))
               fw_version_request 4 5000 [] me_ready
  = (Returned 0 me_ready,
     [EvWrite 3 fw_version_request 4 4 0;
      EvSelect 4 3 {| tv_sec := 5; tv_usec := 0 |} 0 false;
      EvStderr (String.append "Error: " msg_write_timeout) []]) /\
  ~ Uninitialized me_ready.
Proof.
  split; [reflexivity|]. split; [reflexivity|].
  intros [H _]. discriminate H.
Qed.

(** ** Transfers on an uninitialized session *)




(** ** Connect *)

Ltac run_init := unfold mei_init; unfold_monad; cbn.



(** ** A failed open *)

Lemma msg_no_handle_need_root : msg_no_handle <> msg_need_root.
Proof. intros H. discriminate H. Qed.

(** C9, as stated, fails: when [open] fails, [mei_init] does not hand an
    error to its caller; it ends the process with [exit(-1)], for the
    unprivileged caller and for root alike. *)
Lemma open_failure_does_not_return :
  fst (mei_init (mock_os (with_open (-1) 1000 mock_good)) MEI_MKHI_HIF_FIX 0
                false [] me_closed)
  = Exited (-1) me_closed /\
  fst (mei_init (mock_os (with_open (-1) 0 mock_good)) MEI_MKHI_HIF_FIX 0
                false [] me_closed)
  = Exited (-1) me_closed /\
  ~ (exists b me',
        fst (mei_init (mock_os (with_open (-1) 1000 mock_good))
                      MEI_MKHI_HIF_FIX 0 false [] me_closed)
        = Returned b me').
Proof.
  split; [reflexivity|]. split; [reflexivity|].
  intros [b [me' H]]. discriminate H.
Qed.

(** C9, amended.  When [open] fails, [mei_init] asks for the effective user
    id and prints one of two different messages: the request to run as root
    when the id is not 0, the report that no handle could be had when it is
    0.  In both cases it then ends the process with [exit(-1)]; it does not
    return to its caller.  The descriptor field holds -1 at that point, and
    nothing was closed. *)
Theorem mei_init_open_failure
        (sys : os) (h : trace) (me : mei) (guid : uuid_le) (req : Z)
        (verbose : bool) :
  In (EvOpen "/dev/mei0" O_RDWR (-1))
     (snd (mei_init sys guid req verbose h me)) ->
  (exists euid,
      mei_init sys guid req verbose h me
      = (Exited (-1)
                (if euid =? 0 then set_fd (-1) (set_verbose verbose me)
                 else teardown (set_verbose verbose me)),
         [EvOpen "/dev/mei0" O_RDWR (-1);
          EvGeteuid euid;
          EvStderr (String.append "Error: "
                      (if euid =? 0 then msg_no_handle else msg_need_root))
                   []]))
  /\ msg_no_handle <> msg_need_root.
Proof.
  intros Ho. split; [|exact msg_no_handle_need_root].
  revert Ho. run_init. repeat step.
  all: intros Ho; pick Ho; try congruence.
  all: match goal with
       | |- context [EvGeteuid ?u] => exists u
       end.
  all: match goal with
       | |- context [?u =? 0] => destruct (Z.eqb_spec u 0); try congruence
       end.
  all: repeat match goal with
              | H : os_open _ _ _ _ = -1 |- _ => rewrite ?H; clear H
              end.
  all: reflexivity.
Qed.

Lemma mei_init_open_failure_witness :
  In (EvOpen "/dev/mei0" O_RDWR (-1))
     (snd (mei_init (mock_os (with_open (-1) 1000 mock_good))
                    MEI_MKHI_HIF_FIX 0 false [] me_closed)) /\
  ((exists euid,
       mei_init (mock_os (with_open (-1) 1000 mock_good)) MEI_MKHI_HIF_FIX 0
                false [] me_closed
       = (Exited (-1)
                 (if euid =? 0 then set_fd (-1) (set_verbose false me_closed)
                  else teardown (set_verbose false me_closed)),
          [EvOpen "/dev/mei0" O_RDWR (-1);
           EvGeteuid euid;
           EvStderr (String.append "Error: "
                       (if euid =? 0 then msg_no_handle else msg_need_root))
                    []]))
   /\ msg_no_handle <> msg_need_root).
Proof.
  assert (Ho : In (EvOpen "/dev/mei0" O_RDWR (-1))
                  (snd (mei_init (mock_os (with_open (-1) 1000 mock_good))
                                 MEI_MKHI_HIF_FIX 0 false [] me_closed))).
  { vm_compute. left. reflexivity. }
  split.
  - exact Ho.
  - exact (mei_init_open_failure
             (mock_os (with_open (-1) 1000 mock_good)) [] me_closed
             MEI_MKHI_HIF_FIX 0 false Ho).
Defined.

(** ** The session invariant *)

Lemma last_connect_app (h e : trace) :
  last_connect (h ++ e) =
  match last_connect e with
  | Some cl => Some cl
  | None => last_connect h
  end.
Proof.
  induction h as [|ev h IH]; simpl.
  - destruct (last_connect e); reflexivity.
  - rewrite IH. destruct (last_connect e); reflexivity.
Qed.

(** A session that is not initialized satisfies I1 on any history. *)
Lemma I1_teardown (h : trace) (me : mei) : I1 h (teardown me).
Proof. intros H. discriminate H. Qed.

(** [mei_init] establishes I1 whenever it returns, whatever the struct held
    before. *)
Lemma mei_init_I1
      (sys : os) (h : trace) (me : mei) (guid : uuid_le) (req : Z)
      (verbose : bool) (b : bool) (me' : mei) (e : trace) :
  mei_init sys guid req verbose h me = (Returned b me', e) ->
  I1 (h ++ e) me'.
Proof.
  run_init. repeat step.
  all: intros Hrun; try discriminate Hrun; inversion Hrun; subst; clear Hrun.
  all: intros Hi; try discriminate Hi.
  all: (split; [assumption|]).
  all: eexists; rewrite last_connect_app; cbn.
  all: repeat split; reflexivity.
Qed.

(** The transfer functions keep I1. *)
Lemma mei_send_msg_I1
      (sys : os) (h : trace) (me : mei) (buffer : list byte)
      (len timeout rc : Z) (me' : mei) (e : trace) :
  I1 h me ->
  mei_send_msg sys buffer len timeout h me = (Returned rc me', e) ->
  I1 (h ++ e) me'.
Proof.
  intros Hinv. run_send. repeat step.
  all: intros Hrun; inversion Hrun; subst; clear Hrun.
  all: try (intros Hi; discriminate Hi).
  all: unfold I1 in *; rewrite last_connect_app; cbn; exact Hinv.
Qed.

Lemma mei_recv_msg_I1
      (sys : os) (h : trace) (me : mei) (buffer : list byte)
      (len timeout : Z) (r : Z * list byte) (me' : mei) (e : trace) :
  I1 h me ->
  mei_recv_msg sys buffer len timeout h me = (Returned r me', e) ->
  I1 (h ++ e) me'.
Proof.
  intros Hinv. run_recv. repeat step.
  all: intros Hrun; inversion Hrun; subst; clear Hrun.
  all: try (intros Hi; discriminate Hi).
  all: unfold I1 in *; rewrite last_connect_app; cbn; exact Hinv.
Qed.

Lemma mei_deinit_I1 (h : trace) (me me' : mei) (u : unit) (e : trace) :
  mei_deinit h me = (Returned u me', e) -> I1 (h ++ e) me'.
Proof.
  rewrite mei_deinit_run. intros H. inversion H; subst.
  apply I1_teardown.
Qed.

(** One operation of the caller keeps I1; connect and close establish it. *)
Lemma run_op_I1
      (sys : os) (o : op) (h : trace) (me me' : mei) (u : unit) (e : trace) :
  (I1 h me \/ (exists g v b, o = OpInit g v b) \/ o = OpDeinit) ->
  run_op sys o h me = (Returned u me', e) ->
  I1 (h ++ e) me'.
Proof.
  intros Hpre. destruct o as [g v b|b l t|b l t|]; simpl.
  - unfold bind, ret.
    destruct (mei_init sys g v b h me) as [[r s|c s] e1] eqn:E;
      intros H; inversion H; subst; clear H.
    rewrite app_nil_r. eapply mei_init_I1; eassumption.
  - destruct Hpre as [Hinv|[[g [v [b' Hc]]]|Hc]]; try discriminate Hc.
    unfold bind, ret.
    destruct (mei_send_msg sys b l t h me) as [[r s|c s] e1] eqn:E;
      intros H; inversion H; subst; clear H.
    rewrite app_nil_r. eapply mei_send_msg_I1; eassumption.
  - destruct Hpre as [Hinv|[[g [v [b' Hc]]]|Hc]]; try discriminate Hc.
    unfold bind, ret.
    destruct (mei_recv_msg sys b l t h me) as [[r s|c s] e1] eqn:E;
      intros H; inversion H; subst; clear H.
    rewrite app_nil_r. eapply mei_recv_msg_I1; eassumption.
  - apply mei_deinit_I1.
Qed.

Lemma run_ops_I1
      (sys : os) (ops : list op) :
  forall (h : trace) (me me' : mei) (u : unit) (e : trace),
    I1 h me ->
    run_ops sys ops h me = (Returned u me', e) ->
    I1 (h ++ e) me'.
Proof.
  induction ops as [|o rest IH]; intros h me me' u e Hinv; simpl.
  - unfold ret. intros H; inversion H; subst. rewrite app_nil_r. exact Hinv.
  - unfold bind.
    destruct (run_op sys o h me) as [[u1 s1|c s1] e1] eqn:E1;
      [|intros H; discriminate H].
    destruct (run_ops sys rest (h ++ e1) s1) as [o2 e2] eqn:E2.
    intros H; inversion H; subst; clear H.
    rewrite app_assoc. eapply IH; [|exact E2].
    eapply run_op_I1; [left; exact Hinv|exact E1].
Qed.

(** C5. Invariant I1 holds after every completed operation.  Take any
    sequence of connect, send, receive and close on one struct, run to its
    end without the process exiting.  If the struct satisfied I1 at the start
    (a session that is not initialized does), it satisfies I1 at the end; and
    if the sequence starts with a connect or a close, it satisfies I1 at the
    end whatever the struct held at the start.  I1 says: an initialized
    session holds a descriptor other than -1, and its [buf_size] and
    [prot_ver] are the [max_msg_length] and [protocol_version] of the last
    connect request the driver accepted. *)
Theorem I1_after_every_operation
        (sys : os) (ops : list op) (h : trace) (me me' : mei) (u : unit)
        (e : trace) :
  run_ops sys ops h me = (Returned u me', e) ->
  (I1 h me \/
   exists o rest, ops = o :: rest /\
                  ((exists g v b, o = OpInit g v b) \/ o = OpDeinit)) ->
  I1 (h ++ e) me'.
Proof.
  intros Hrun [Hinv|[o [rest [Hops Hfirst]]]].
  - eapply run_ops_I1; eassumption.
  - subst ops. revert Hrun. simpl. unfold bind.
    destruct (run_op sys o h me) as [[u1 s1|c s1] e1] eqn:E1;
      [|intros H; discriminate H].
    destruct (run_ops sys rest (h ++ e1) s1) as [o2 e2] eqn:E2.
    intros H; inversion H; subst; clear H.
    rewrite app_assoc. eapply run_ops_I1; [|exact E2].
    eapply run_op_I1; [right; exact Hfirst|exact E1].
Qed.

Lemma I1_after_every_operation_witness :
  run_ops (mock_os mock_good) session_ops [] me_closed
  = (Returned tt me_ready,
     snd (run_ops (mock_os mock_good) session_ops [] me_closed)) /\
  I1 [] me_closed /\
  initialized me_ready = true /\
  I1 ([] ++ snd (run_ops (mock_os mock_good) session_ops [] me_closed))
     me_ready.
Proof.
  assert (Hrun : run_ops (mock_os mock_good) session_ops [] me_closed
                 = (Returned tt me_ready,
                    snd (run_ops (mock_os mock_good) session_ops []
                                 me_closed))) by reflexivity.
  assert (Hinv : I1 [] me_closed) by (intros H; discriminate H).
  split; [exact Hrun|]. split; [exact Hinv|]. split; [reflexivity|].
  exact (I1_after_every_operation
           (mock_os mock_good) session_ops [] me_closed me_ready tt _
           Hrun (or_introl Hinv)).
Defined.

(** * Further properties *)

(** ** The shape of a transfer *)

(** X1. [mei_send_msg] calls [write] exactly once, whatever count it
    reports: a short or failed [write] is not retried.  It calls [select]
    only after a [write] that did not fail, once, on the descriptor of the
    session with [nfds] one above it and the [timeval] built from the
    deadline. *)
Theorem mei_send_msg_one_write
        (sys : os) (h : trace) (me : mei) (buffer : list byte)
        (len timeout : Z) :
  exists written errno,
    (written < 0 /\
     io_attempts (snd (mei_send_msg sys buffer len timeout h me))
     = [EvWrite (fd me) buffer len written errno])
    \/
    (0 <= written /\
     exists rc isset,
       io_attempts (snd (mei_send_msg sys buffer len timeout h me))
       = [EvWrite (fd me) buffer len written errno;
          EvSelect (fd me + 1) (fd me) (send_timeval timeout) rc isset]).
Proof.
  run_send. repeat step.
  all: eexists; eexists.
  all: first [ left; split; [|reflexivity]; assumption
             | right; split; [|eexists; eexists; reflexivity]; assumption ].
Qed.

(** X2. A transfer never ends the process, and it tears the session down
    exactly when its result is negative: after [mei_send_msg] or
    [mei_recv_msg] the struct is [teardown me] if the result is below 0 and
    is untouched otherwise.  The descriptor is closed in the first case
    only, once, unless the struct held none.  A failed [mei_recv_msg] leaves
    the caller's buffer as it was; one that did not fail has put the bytes
    that its one [read] delivered, as many as the [read] reported, at the
    start of the buffer. *)
Theorem transfer_teardown_iff_negative
        (sys : os) (h : trace) (me : mei) (buffer : list byte)
        (len timeout : Z) :
  (exists rc,
      fst (mei_send_msg sys buffer len timeout h me)
      = Returned rc (if rc <? 0 then teardown me else me) /\
      closes (snd (mei_send_msg sys buffer len timeout h me))
      = (if (rc <? 0) && negb (fd me =? -1) then [fd me] else []))
  /\
  (exists rc buffer',
      fst (mei_recv_msg sys buffer len timeout h me)
      = Returned (rc, buffer') (if rc <? 0 then teardown me else me) /\
      closes (snd (mei_recv_msg sys buffer len timeout h me))
      = (if (rc <? 0) && negb (fd me =? -1) then [fd me] else []) /\
      exists data errno,
        io_attempts (snd (mei_recv_msg sys buffer len timeout h me))
        = [EvRead (fd me) len rc data errno] /\
        buffer' = (if rc <? 0 then buffer
                   else overwrite buffer (firstn (Z.to_nat rc) data))).
Proof.
  split.
  - run_send. repeat step.
    all: match goal with
         | |- exists _, Returned ?rc _ = _ /\ _ => exists rc
         end.
    all: match goal with
         | |- Returned ?rc _ = _ /\ _ => destruct (Z.ltb_spec rc 0); try lia
         end.
    all: destruct (Z.eqb_spec (fd me) (-1)); try congruence.
    all: split; reflexivity.
  - run_recv. repeat step.
    all: match goal with
         | |- exists _ _, Returned (?rc, ?b) _ = _ /\ _ => exists rc, b
         end.
    all: match goal with
         | |- Returned (?rc, _) _ = _ /\ _ =>
             destruct (Z.ltb_spec rc 0); try lia
         end.
    all: destruct (Z.eqb_spec (fd me) (-1)); try congruence.
    all: split; [reflexivity|split; [reflexivity|]].
    all: eexists; eexists; split; reflexivity.
Qed.

(** ** How long send waits *)

Lemma send_timeval_ms (timeout : Z) :
  timeval_ms (send_timeval timeout) = timeout + 999 * (timeout mod 1000).
Proof.
  unfold timeval_ms. rewrite send_timeval_usec.
  unfold send_timeval; simpl tv_sec.
  pose proof (Z.div_mod timeout 1000 ltac:(lia)) as Hd.
  replace (timeout mod 1000 * 1000000) with ((timeout mod 1000 * 1000) * 1000)
    by lia.
  rewrite Z.div_mul by lia. lia.
Qed.

(** X3. Every [select] of [mei_send_msg] is given the deadline and 999
    times its millisecond part on top: never less than the deadline, up to
    998001 ms more than it, and the deadline itself only when that is whole
    seconds. *)
Theorem mei_send_msg_wait
        (sys : os) (h : trace) (me : mei) (buffer : list byte)
        (len timeout nfds f rc : Z) (tv : timeval) (isset : bool) :
  In (EvSelect nfds f tv rc isset)
     (snd (mei_send_msg sys buffer len timeout h me)) ->
  timeval_ms tv = timeout + 999 * (timeout mod 1000) /\
  timeout <= timeval_ms tv <= timeout + 998001.
Proof.
  intros Hs.
  assert (Htv : tv = send_timeval timeout).
  { revert Hs. run_send. repeat step.
    all: intros Hs; pick Hs; reflexivity. }
  subst tv. rewrite send_timeval_ms.
  pose proof (Z.mod_pos_bound timeout 1000 ltac:(lia)).
  lia.
Qed.

Lemma mei_send_msg_wait_witness :
  In (EvSelect 4 3 {| tv_sec := 1; tv_usec := 500000000 |} 1 true)
     (snd (mei_send_msg (mock_os mock_good) fw_version_request 4 1500 []
                        me_ready)) /\
  timeval_ms {| tv_sec := 1; tv_usec := 500000000 |}
  = 1500 + 999 * (1500 mod 1000) /\
  1500 <= timeval_ms {| tv_sec := 1; tv_usec := 500000000 |}
       <= 1500 + 998001.
Proof.
  assert (Hs : In (EvSelect 4 3 {| tv_sec := 1; tv_usec := 500000000 |} 1
                            true)
                  (snd (mei_send_msg (mock_os mock_good) fw_version_request
                                     4 1500 [] me_ready))).
  { vm_compute. right. left. reflexivity. }
  split; [exact Hs|].
  exact (mei_send_msg_wait (mock_os mock_good) [] me_ready
                           fw_version_request 4 1500 4 3 1
                           {| tv_sec := 1; tv_usec := 500000000 |} true Hs).
Defined.

(** ** What a quiet session prints *)

(** X4. With [verbose] off, a call prints on [stderr] exactly when it does
    not succeed, and then one line, from [mei_err].  [mei_send_msg] is silent
    exactly when its [write] did not fail and its [select] returned a
    positive count with the descriptor set; [mei_recv_msg] exactly when its
    [read] did not fail; [mei_init], whose [verbose] is the argument and not
    what the struct held, exactly when it returns [true]. *)
Theorem quiet_session_prints_errors_only
        (sys : os) (h : trace) (me : mei) (buffer : list byte)
        (len timeout : Z) (guid : uuid_le) (req : Z) :
  (verbose me = false ->
   (stderr_lines (snd (mei_send_msg sys buffer len timeout h me)) = [] \/
    exists fmt args,
      stderr_lines (snd (mei_send_msg sys buffer len timeout h me))
      = [EvStderr (String.append "Error: " fmt) args]) /\
   (stderr_lines (snd (mei_send_msg sys buffer len timeout h me)) = [] <->
    exists written errno rc,
      io_attempts (snd (mei_send_msg sys buffer len timeout h me))
      = [EvWrite (fd me) buffer len written errno;
         EvSelect (fd me + 1) (fd me) (send_timeval timeout) rc true] /\
      0 <= written /\ 0 < rc))
  /\
  (verbose me = false ->
   (stderr_lines (snd (mei_recv_msg sys buffer len timeout h me)) = [] \/
    exists fmt args,
      stderr_lines (snd (mei_recv_msg sys buffer len timeout h me))
      = [EvStderr (String.append "Error: " fmt) args]) /\
   (stderr_lines (snd (mei_recv_msg sys buffer len timeout h me)) = [] <->
    exists rc data errno,
      io_attempts (snd (mei_recv_msg sys buffer len timeout h me))
      = [EvRead (fd me) len rc data errno] /\ 0 <= rc))
  /\
  ((stderr_lines (snd (mei_init sys guid req false h me)) = [] \/
    exists fmt args,
      stderr_lines (snd (mei_init sys guid req false h me))
      = [EvStderr (String.append "Error: " fmt) args]) /\
   (stderr_lines (snd (mei_init sys guid req false h me)) = [] <->
    exists me', fst (mei_init sys guid req false h me) = Returned true me')).
Proof.
  split; [|split].
  - intros Hv. run_send. rewrite Hv. cbn. repeat step.
    all: split;
      [ first [ left; reflexivity
              | right; eexists; eexists; reflexivity ] |].
    all: split; intros Hx.
    all: try discriminate Hx.
    all: try (eexists; eexists; eexists;
              split; [reflexivity|split; assumption]).
    all: try reflexivity.
    all: destruct Hx as [? [? [? [Hx [? ?]]]]];
      try discriminate Hx; inversion Hx; subst; lia.
  - intros Hv. run_recv. rewrite Hv. cbn. repeat step.
    all: split;
      [ first [ left; reflexivity
              | right; eexists; eexists; reflexivity ] |].
    all: split; intros Hx.
    all: try discriminate Hx.
    all: try (eexists; eexists; eexists; split; [reflexivity|assumption]).
    all: try reflexivity.
    all: destruct Hx as [? [? [? [Hx ?]]]]; inversion Hx; subst; lia.
  - run_init. repeat step.
    all: split;
      [ first [ left; reflexivity
              | right; eexists; eexists; reflexivity ] |].
    all: split; intros Hx.
    all: try discriminate Hx.
    all: try (eexists; reflexivity).
    all: destruct Hx as [? Hx]; discriminate Hx.
Qed.

Lemma quiet_session_prints_errors_only_witness :
  verbose me_ready = false /\
  stderr_lines
    (snd (mei_send_msg (mock_os mock_good) fw_version_request 4 5000 []
                       me_ready)) = [] /\
  stderr_lines
    (snd (mei_recv_msg (mock_os mock_good) fw_version_request 4 5000 []
                       me_ready)) = [].
Proof.
  pose proof (quiet_session_prints_errors_only
                (mock_os mock_good) [] me_ready fw_version_request 4 5000
                MEI_MKHI_HIF_FIX 0) as [Hs [Hr _]].
  split; [reflexivity|]. split.
  - apply (proj2 (Hs eq_refl)).
    exists 4, 0, 1. split; [reflexivity|lia].
  - apply (proj2 (Hr eq_refl)).
    exists 4, [xff; x82; x00; x00], 0. split; [reflexivity|lia].
Defined.

(** ** Connect, in full *)

(** X5. What [mei_init] returns once the connect request was made.  It
    returns [true] exactly when the [ioctl] returned 0 and, for a requested
    version above 0, the driver's version is the requested one.  The request
    carries the [guid] argument on the descriptor just opened.  On [true] the
    struct holds that descriptor and the driver's parameters; on [false] it
    is torn down; either way its [guid] and [verbose] are the arguments, not
    what it held before. *)
Theorem mei_init_outcome
        (sys : os) (h : trace) (me : mei) (guid : uuid_le) (req : Z)
        (verbose : bool) (f : Z) (uuid : uuid_le) (result : Z)
        (cl : mei_client) :
  In (EvIoctlConnect f uuid result cl)
     (snd (mei_init sys guid req verbose h me)) ->
  uuid = guid /\
  In (EvOpen "/dev/mei0" O_RDWR f)
     (snd (mei_init sys guid req verbose h me)) /\
  f <> -1 /\
  fst (mei_init sys guid req verbose h me)
  = Returned
      ((result =? 0)
       && negb ((req >? 0) && negb (protocol_version cl =? req)))
      (if (result =? 0)
          && negb ((req >? 0) && negb (protocol_version cl =? req))
       then Mk_mei guid true verbose (max_msg_length cl)
                   (protocol_version cl) f
       else Mk_mei guid false verbose 0 0 (-1)).
Proof.
  run_init. repeat step.
  all: intros Hc; pick Hc; try lia; try congruence.
  all: split; [reflexivity|].
  all: split; [left; reflexivity|].
  all: split; [assumption|reflexivity].
Qed.

Lemma mei_init_outcome_witness :
  In (EvIoctlConnect 3 MEI_MKHI_HIF_FIX 0 (Mk_mei_client 512 1))
     (snd (mei_init (mock_os mock_good) MEI_MKHI_HIF_FIX 1 false []
                    me_closed)) /\
  fst (mei_init (mock_os mock_good) MEI_MKHI_HIF_FIX 1 false [] me_closed)
  = Returned true me_ready.
Proof.
  assert (Hc : In (EvIoctlConnect 3 MEI_MKHI_HIF_FIX 0 (Mk_mei_client 512 1))
                  (snd (mei_init (mock_os mock_good) MEI_MKHI_HIF_FIX 1
                                 false [] me_closed))).
  { vm_compute. right. left. reflexivity. }
  split; [exact Hc|].
  exact (proj2 (proj2 (proj2 (mei_init_outcome
                                (mock_os mock_good) [] me_closed
                                MEI_MKHI_HIF_FIX 1 false 3 MEI_MKHI_HIF_FIX 0
                                (Mk_mei_client 512 1) Hc)))).
Defined.

(** ** The descriptors of a session *)

Lemma release_In (f : Z) (held : list Z) :
  In f held -> exists held', release f held = Some held' /\ incl held' held.
Proof.
  induction held as [|g rest IH]; simpl; [intros []|].
  intros Hin. destruct (Z.eqb_spec g f) as [->|Hne].
  - exists rest. split; [reflexivity|]. apply incl_tl, incl_refl.
  - destruct Hin as [Hg|Hin]; [congruence|].
    destruct (IH Hin) as [rest' [Hr Hi]]. rewrite Hr.
    exists (g :: rest'). split; [reflexivity|].
    intros x [Hx|Hx]; [left; exact Hx|right; apply Hi; exact Hx].
Qed.

Lemma release_head (f : Z) (held : list Z) :
  release f (f :: held) = Some held.
Proof. simpl. rewrite Z.eqb_refl. reflexivity. Qed.

Lemma fd_protocol_app (held : list Z) (e1 e2 : trace) :
  fd_protocol held (e1 ++ e2) =
  match fd_protocol held e1 with
  | Some held' => fd_protocol held' e2
  | None => None
  end.
Proof.
  revert held. induction e1 as [|ev e1 IH]; intros held; simpl;
    [reflexivity|].
  destruct ev; simpl; rewrite ?IH; try reflexivity.
  destruct (release fd0 held); [apply IH|reflexivity].
Qed.

Lemma mei_init_fd_protocol
      (sys : os) (h : trace) (me : mei) (guid : uuid_le) (req : Z)
      (verbose : bool) (held : list Z) :
  exists held',
    fd_protocol held (snd (mei_init sys guid req verbose h me)) = Some held' /\
    incl held held' /\
    holds_fd held' (final_state (fst (mei_init sys guid req verbose h me))) /\
    incl (closes (snd (mei_init sys guid req verbose h me)))
         (opens (snd (mei_init sys guid req verbose h me))).
Proof.
  unfold holds_fd. run_init. repeat step.
  all: eexists; split; [reflexivity|].
  all: split; [auto using incl_refl, incl_tl|].
  all: split; [first [ left; reflexivity | left; assumption
                     | right; left; reflexivity ]|].
  all: auto using incl_refl, incl_nil_l.
Qed.

(** X6. [mei_init] closes no descriptor but the one it opened itself.
    Whatever descriptors the process holds on entry, it still holds them all
    after the call, the one in the struct included: a second [mei_init]
    without a [mei_deinit] in between overwrites [fd] and leaves the old
    descriptor open.  The descriptor the struct holds afterwards, if any, is
    one the process holds. *)
Theorem mei_init_keeps_held_descriptors
        (sys : os) (h : trace) (me : mei) (guid : uuid_le) (req : Z)
        (verbose : bool) (held : list Z) :
  exists held',
    fd_protocol held (snd (mei_init sys guid req verbose h me)) = Some held' /\
    incl held held' /\
    holds_fd held' (final_state (fst (mei_init sys guid req verbose h me))) /\
    incl (closes (snd (mei_init sys guid req verbose h me)))
         (opens (snd (mei_init sys guid req verbose h me))).
Proof.
  unfold holds_fd. run_init. repeat step.
  all: eexists; split; [reflexivity|].
  all: split; [auto using incl_refl, incl_tl|].
  all: split; [first [ left; reflexivity | left; assumption
                     | right; left; reflexivity ]|].
  all: auto using incl_refl, incl_nil_l.
Qed.

Ltac close_held Hinv :=
  first
    [ eexists; split; [reflexivity|]; first [exact Hinv|left; reflexivity]
    | let Hin := fresh "Hin" in
      let held' := fresh "held'" in
      let Hr := fresh "Hr" in
      destruct Hinv as [Hinv|Hin]; [congruence|];
      destruct (release_In _ _ Hin) as [held' [Hr _]]; rewrite Hr;
      eexists; split; [reflexivity|left; reflexivity] ].

Lemma mei_send_msg_fd_protocol
      (sys : os) (h : trace) (me : mei) (buffer : list byte)
      (len timeout : Z) (held : list Z) :
  holds_fd held me ->
  exists held',
    fd_protocol held (snd (mei_send_msg sys buffer len timeout h me))
    = Some held' /\
    holds_fd held'
             (final_state (fst (mei_send_msg sys buffer len timeout h me))).
Proof.
  unfold holds_fd. intros Hinv. run_send. repeat step.
  all: close_held Hinv.
Qed.

Lemma mei_recv_msg_fd_protocol
      (sys : os) (h : trace) (me : mei) (buffer : list byte)
      (len timeout : Z) (held : list Z) :
  holds_fd held me ->
  exists held',
    fd_protocol held (snd (mei_recv_msg sys buffer len timeout h me))
    = Some held' /\
    holds_fd held'
             (final_state (fst (mei_recv_msg sys buffer len timeout h me))).
Proof.
  unfold holds_fd. intros Hinv. run_recv. repeat step.
  all: close_held Hinv.
Qed.

Lemma mei_deinit_fd_protocol (h : trace) (me : mei) (held : list Z) :
  holds_fd held me ->
  exists held',
    fd_protocol held (snd (mei_deinit h me)) = Some held' /\
    holds_fd held' (final_state (fst (mei_deinit h me))).
Proof.
  unfold holds_fd. intros Hinv. rewrite mei_deinit_run. cbn.
  destruct (Z.eqb_spec (fd me) (-1)); cbn.
  all: close_held Hinv.
Qed.

Lemma run_op_fd_protocol
      (sys : os) (o : op) (h : trace) (me : mei) (held : list Z) :
  holds_fd held me ->
  exists held',
    fd_protocol held (snd (run_op sys o h me)) = Some held' /\
    holds_fd held' (final_state (fst (run_op sys o h me))).
Proof.
  intros Hinv. destruct o as [g v b|b l t|b l t|]; simpl.
  - destruct (mei_init_fd_protocol sys h me g v b held)
      as [held' [Hp [_ [Hh _]]]].
    unfold bind, ret.
    destruct (mei_init sys g v b h me) as [[r s|c s] e]; cbn in *;
      rewrite ?app_nil_r; eauto.
  - destruct (mei_send_msg_fd_protocol sys h me b l t held Hinv)
      as [held' [Hp Hh]].
    unfold bind, ret.
    destruct (mei_send_msg sys b l t h me) as [[r s|c s] e]; cbn in *;
      rewrite ?app_nil_r; eauto.
  - destruct (mei_recv_msg_fd_protocol sys h me b l t held Hinv)
      as [held' [Hp Hh]].
    unfold bind, ret.
    destruct (mei_recv_msg sys b l t h me) as [[r s|c s] e]; cbn in *;
      rewrite ?app_nil_r; eauto.
  - apply mei_deinit_fd_protocol. exact Hinv.
Qed.

(** X7. The descriptor discipline of a session.  Take any sequence of
    connect, send, receive and close on one struct, and any device.  If the
    struct starts with no descriptor, or with one the process holds, then the
    whole run keeps the discipline: every [close] it makes releases a
    descriptor that is held at that moment, so no descriptor is closed twice
    and none is closed that was not opened.  This holds up to the end of the
    run or to the [exit] that cuts it short, and the struct then again holds
    no descriptor or one the process holds. *)
Theorem session_fd_protocol
        (sys : os) (ops : list op) (h : trace) (me : mei) (held : list Z) :
  holds_fd held me ->
  exists held',
    fd_protocol held (snd (run_ops sys ops h me)) = Some held' /\
    holds_fd held' (final_state (fst (run_ops sys ops h me))).
Proof.
  revert h me held.
  induction ops as [|o rest IH]; intros h me held Hinv; simpl.
  - exists held. split; [reflexivity|exact Hinv].
  - destruct (run_op_fd_protocol sys o h me held Hinv) as [held1 [Hp1 Hh1]].
    unfold bind.
    destruct (run_op sys o h me) as [[u s1|c s1] e1]; cbn in *.
    + destruct (IH (h ++ e1) s1 held1 Hh1) as [held2 [Hp2 Hh2]].
      destruct (run_ops sys rest (h ++ e1) s1) as [o2 e2]; cbn in *.
      exists held2. rewrite fd_protocol_app, Hp1. split; assumption.
    + exists held1. split; assumption.
Qed.

Lemma session_fd_protocol_witness :
  holds_fd [] me_closed /\
  exists held',
    fd_protocol []
      (snd (run_ops (mock_os (with_select (-1, false) mock_good))
                    (session_ops ++ [OpDeinit; OpDeinit]) [] me_closed))
    = Some held' /\
    holds_fd held'
      (final_state
         (fst (run_ops (mock_os (with_select (-1, false) mock_good))
                       (session_ops ++ [OpDeinit; OpDeinit]) []
                       me_closed))).
Proof.
  assert (Hh : holds_fd [] me_closed) by (left; reflexivity).
  split; [exact Hh|].
  exact (session_fd_protocol
           (mock_os (with_select (-1, false) mock_good))
           (session_ops ++ [OpDeinit; OpDeinit]) [] me_closed [] Hh).
Defined.

(** ** The MKHI initializer, in full *)

Ltac run_mkhi :=
  unfold mkhi_host_if_fix_init, mei_init; unfold_monad; cbn.

(** X8. When [mkhi_host_if_fix_init] returns, the flag it stores in
    [acmd->initialized], the flag of the session inside and the value
    returned are all the same.  It has asked the driver for the client
    [MEI_MKHI_HIF_FIX], and it returns [true] exactly when that request
    returned 0, whatever protocol version the driver answered with; the
    session then holds the descriptor of the request and the driver's
    parameters. *)
Theorem mkhi_host_if_fix_init_flags
        (sys : os) (h : trace) (acmd acmd' : mkhi_host_if) (timeout : Z)
        (verbose : bool) (b : bool) :
  fst (mkhi_host_if_fix_init sys timeout verbose h acmd) = Returned b acmd' ->
  hif_initialized acmd' = b /\
  initialized (mei_cl acmd') = b /\
  exists f result cl,
    In (EvIoctlConnect f MEI_MKHI_HIF_FIX result cl)
       (snd (mkhi_host_if_fix_init sys timeout verbose h acmd)) /\
    b = (result =? 0) /\
    (b = true ->
     fd (mei_cl acmd') = f /\ f <> -1 /\
     buf_size (mei_cl acmd') = max_msg_length cl /\
     prot_ver (mei_cl acmd') = protocol_version cl).
Proof.
  run_mkhi. repeat step.
  all: intros Hr; try discriminate Hr; inversion Hr; subst; clear Hr.
  all: split; [reflexivity|split; [reflexivity|]].
  all: eexists; eexists; eexists; split;
    [cbn; right; left; reflexivity|].
  all: split;
    [ first [ reflexivity
            | symmetry; apply Z.eqb_neq; assumption ] |].
  all: intros Ht; try discriminate Ht.
  all: repeat split; try reflexivity; assumption.
Qed.

Lemma mkhi_host_if_fix_init_flags_witness :
  fst (mkhi_host_if_fix_init (mock_os mock_good) 0 false []
                             (Mk_mkhi_host_if me_closed 7 false))
  = Returned true (Mk_mkhi_host_if me_ready 20000 true) /\
  hif_initialized (Mk_mkhi_host_if me_ready 20000 true) = true /\
  initialized (mei_cl (Mk_mkhi_host_if me_ready 20000 true)) = true.
Proof.
  assert (Hr : fst (mkhi_host_if_fix_init (mock_os mock_good) 0 false []
                      (Mk_mkhi_host_if me_closed 7 false))
               = Returned true (Mk_mkhi_host_if me_ready 20000 true))
    by reflexivity.
  split; [exact Hr|].
  pose proof (mkhi_host_if_fix_init_flags
                (mock_os mock_good) []
                (Mk_mkhi_host_if me_closed 7 false)
                (Mk_mkhi_host_if me_ready 20000 true) 0 false true Hr)
    as [H1 [H2 _]].
  split; [exact H1|exact H2].
Defined.

(** ** [main] *)

(** The request [main] sends is the four bytes ff 02 00 00. *)
Lemma header_bytes_GEN_GET_FW_VERSION :
  header_bytes GEN_GET_FW_VERSION = fw_version_request /\
  Z.of_nat (List.length (header_bytes GEN_GET_FW_VERSION))
  = sizeof_MKHI_MESSAGE_HEADER.
Proof. split; reflexivity. Qed.

Ltac run_main :=
  unfold main_from_mkhi_cmd, mkhi_host_if_fix_init, mei_init, mei_send_msg, mei_recv_msg,
    printf, on_mkhi_cmd;
  unfold_monad; cbn.

(** [main], run once through all its paths: what the theorems below take
    apart. *)
Lemma main_run
      (sys : os) (h : trace) (frame : main_frame)
      (o : outcome main_frame Z) (e : trace) :
  main_from_mkhi_cmd sys h frame = (o, e) ->
  closes e = opens e
  /\
  ((exists f, o = Returned 0 f) \/
   (exists f, o = Exited (-1) f /\
              stdout f = stdout frame /\
              In (EvOpen "/dev/mei0" O_RDWR (-1)) e))
  /\
  (forall fd uuid r cl,
      In (EvIoctlConnect fd uuid r cl) e ->
      r <> 0 ->
      exists f,
        o = Returned 0 f /\
        stdout f = stdout frame ++ [(msg_failed_to_initialise, [])] /\
        io_attempts e = [])
  /\
  (forall fd buf len written errno,
      In (EvWrite fd buf len written errno) e ->
      written < 0 -> 0 < errno ->
      exists rc data errno',
        In (EvRead (-1) sizeof_GEN_GET_FW_VERSION_Response rc data errno') e)
  /\
  (forall fd len rc data errno,
      In (EvRead fd len rc data errno) e ->
      exists f,
        o = Returned 0 f /\
        resp f = (if rc <? 0 then resp frame
                  else overwrite (resp frame) (firstn (Z.to_nat rc) data)) /\
        stdout f
        = stdout frame ++
          [(msg_initialised, []);
           (msg_version,
            [CodeBuild (resp f); CodeMajor (resp f); CodeMinor (resp f);
             CodeHotfix (resp f)])]).
Proof.
  run_main. repeat step.
  all: intros Hrun; injection Hrun as Ho He; subst o e; cbn; repeat step.
  all: split; [reflexivity|].
  all: split;
    [ first [ left; eexists; reflexivity
            | right; eexists; split; [reflexivity|];
              split; [reflexivity|]; cbn; left; f_equal; assumption ] |].
  all: split;
    [ intros ? ? ? ? Hc ?; pick Hc; try lia; try congruence;
      (eexists; (split; [reflexivity|]); split; reflexivity) |].
  all: split;
    [ intros ? ? ? ? ? Hw ? ?; pick Hw; try lia; try congruence;
      (eexists; eexists; eexists; cbn;
       repeat (first [left; reflexivity|right])) |].
  all: intros ? ? ? ? ? Hr; pick Hr; try lia; try congruence.
  all: eexists; (split; [reflexivity|]).
  all: match goal with
       | |- context [?rc <? 0] => destruct (Z.ltb_spec rc 0); try lia
       end.
  all: split; [reflexivity|cbn; rewrite <- app_assoc; reflexivity].
Qed.

(** X9. [main] closes exactly the descriptors it opened, in every run: if
    [open] gave a descriptor, that descriptor is closed once, wherever the
    session was torn down (a failed connect, a failed send, a failed receive
    or the last [mei_deinit]), and nothing else is closed; if [open] failed,
    nothing is closed. *)
Theorem main_closes_what_it_opens
        (sys : os) (h : trace) (frame : main_frame) :
  closes (snd (main_from_mkhi_cmd sys h frame)) = opens (snd (main_from_mkhi_cmd sys h frame)).
Proof.
  destruct (main_from_mkhi_cmd sys h frame) as [o e] eqn:E.
  exact (proj1 (main_run sys h frame o e E)).
Qed.

(** X10. How [main] ends.  When [fopen] of the debugfs file gives [NULL],
    [main] hands it to [fwrite], the behaviour is not defined, and no call of
    the session was made.  Otherwise the three [stdio] calls are made and
    [main] ends in one of two ways: it returns 0, or the process ends in the
    [exit(-1)] after a failed [open] of the device, with nothing printed on
    [stdout].  In particular, when the driver refuses the connect request,
    [main] prints that the interface failed to initialise, makes no transfer,
    and still returns 0 (its [return false]): the status does not tell a
    failed initialisation from success.  What [fwrite] reports changes
    nothing. *)
Theorem main_exit_status
        (io : stdio) (sys : os) (h : trace) (frame : main_frame) :
  match main io sys h frame with
  | Undefined pre =>
      io_fopen io allow_fixed_address "w" = false /\
      pre = [EvFopen allow_fixed_address "w" false]
  | Ran pre o e =>
      io_fopen io allow_fixed_address "w" = true /\
      pre = [EvFopen allow_fixed_address "w" true;
             EvFwrite "Y" 1 1 (io_fwrite io "Y" 1 1);
             EvFclose] /\
      (o, e) = main_from_mkhi_cmd sys h frame /\
      ((exists f, o = Returned 0 f) \/
       (exists f, o = Exited (-1) f /\
                  stdout f = stdout frame /\
                  In (EvOpen "/dev/mei0" O_RDWR (-1)) e)) /\
      (forall fd uuid r cl,
          In (EvIoctlConnect fd uuid r cl) e ->
          r <> 0 ->
          exists f,
            o = Returned 0 f /\
            stdout f = stdout frame ++ [(msg_failed_to_initialise, [])] /\
            io_attempts e = [])
  end.
Proof.
  unfold main.
  destruct (io_fopen io allow_fixed_address "w") eqn:Hfp.
  - destruct (main_from_mkhi_cmd sys h frame) as [o e] eqn:E.
    destruct (main_run sys h frame o e E) as [_ [H1 [H2 _]]].
    repeat (split; [reflexivity|]). split; assumption.
  - split; reflexivity.
Qed.

Lemma main_exit_status_witness :
  (exists pre o e f,
      main stdio_good
           (mock_os (with_connect (-1, Mk_mei_client 0 0) mock_good)) []
           frame_garbage = Ran pre o e /\
      o = Returned 0 f /\
      stdout f = stdout frame_garbage ++ [(msg_failed_to_initialise, [])] /\
      io_attempts e = []) /\
  main stdio_no_debugfs (mock_os mock_good) [] frame_garbage
  = Undefined [EvFopen allow_fixed_address "w" false].
Proof.
  split.
  - pose proof (main_exit_status
                  stdio_good
                  (mock_os (with_connect (-1, Mk_mei_client 0 0) mock_good))
                  [] frame_garbage) as H.
    destruct (main stdio_good
                   (mock_os (with_connect (-1, Mk_mei_client 0 0) mock_good))
                   [] frame_garbage) as [pre|pre o e] eqn:E.
    + destruct H as [H _]. discriminate H.
    + destruct H as [_ [_ [Hrun [_ H]]]].
      assert (Hc : In (EvIoctlConnect 3 MEI_MKHI_HIF_FIX (-1)
                                      (Mk_mei_client 0 0)) e).
      { replace e with
          (snd (main_from_mkhi_cmd
                  (mock_os (with_connect (-1, Mk_mei_client 0 0) mock_good))
                  [] frame_garbage)) by (rewrite <- Hrun; reflexivity).
        vm_compute. right. left. reflexivity. }
      destruct (H 3 MEI_MKHI_HIF_FIX (-1) (Mk_mei_client 0 0) Hc
                  ltac:(lia)) as [f [Ho [Hout Hio]]].
      exists pre, o, e, f. repeat split; assumption.
  - pose proof (main_exit_status stdio_no_debugfs (mock_os mock_good) []
                                 frame_garbage) as H.
    destruct (main stdio_no_debugfs (mock_os mock_good) [] frame_garbage)
      as [pre|pre o e] eqn:E.
    + destruct H as [_ H]. rewrite H. reflexivity.
    + destruct H as [H _]. discriminate H.
Defined.

(** X11. [main] does not look at what [mei_send_msg] returns.  When the
    [write] of the request fails, which tears the session down, [main] goes
    on to [mei_recv_msg] all the same, and that calls [read] on the
    descriptor -1 for the size of the response. *)
Theorem main_reads_after_failed_write
        (sys : os) (h : trace) (frame : main_frame)
        (fd : Z) (buf : list byte) (len written errno : Z) :
  In (EvWrite fd buf len written errno) (snd (main_from_mkhi_cmd sys h frame)) ->
  written < 0 -> 0 < errno ->
  exists rc data errno',
    In (EvRead (-1) sizeof_GEN_GET_FW_VERSION_Response rc data errno')
       (snd (main_from_mkhi_cmd sys h frame)).
Proof.
  destruct (main_from_mkhi_cmd sys h frame) as [o e] eqn:E.
  destruct (main_run sys h frame o e E) as [_ [_ [_ [H3 _]]]].
  apply H3.
Qed.

Lemma main_reads_after_failed_write_witness :
  In (EvWrite 3 (header_bytes GEN_GET_FW_VERSION) 4 (-1) EIO)
     (snd (main_from_mkhi_cmd (mock_os (with_write (-1, EIO) mock_good)) []
                frame_garbage)) /\
  exists rc data errno',
    In (EvRead (-1) sizeof_GEN_GET_FW_VERSION_Response rc data errno')
       (snd (main_from_mkhi_cmd (mock_os (with_write (-1, EIO) mock_good)) []
                  frame_garbage)).
Proof.
  assert (Hw : In (EvWrite 3 (header_bytes GEN_GET_FW_VERSION) 4 (-1) EIO)
                  (snd (main_from_mkhi_cmd (mock_os (with_write (-1, EIO) mock_good)) []
                             frame_garbage))).
  { vm_compute. do 5 right. left. reflexivity. }
  split; [exact Hw|].
  apply (main_reads_after_failed_write
           (mock_os (with_write (-1, EIO) mock_good)) [] frame_garbage
           3 (header_bytes GEN_GET_FW_VERSION) 4 (-1) EIO Hw).
  - lia.
  - unfold EIO. lia.
Defined.

Lemma overwrite_full (buffer data : list byte) :
  List.length data = List.length buffer -> overwrite buffer data = data.
Proof.
  intros Hl. unfold overwrite. rewrite Hl, skipn_all. apply app_nil_r.
Qed.

(** X12. Once [main] has called [read], it returns 0 and its last line on
    [stdout] is the version line, whatever [mei_send_msg] and [mei_recv_msg]
    returned.  The four numbers are the fields [CodeBuild], [CodeMajor],
    [CodeMinor] and [CodeHotfix] of [resp] as the [read] left it: the bytes
    read over the start of what [resp] held, and, when the [read] failed,
    what the stack held in [resp] on entry.  When the [read] delivers the
    whole response, they are the fields of the bytes delivered. *)
Theorem main_prints_version_from_buffer
        (sys : os) (h : trace) (frame : main_frame)
        (fd len rc : Z) (data : list byte) (errno : Z) :
  In (EvRead fd len rc data errno) (snd (main_from_mkhi_cmd sys h frame)) ->
  exists f,
    fst (main_from_mkhi_cmd sys h frame) = Returned 0 f /\
    resp f = (if rc <? 0 then resp frame
              else overwrite (resp frame) (firstn (Z.to_nat rc) data)) /\
    stdout f
    = stdout frame ++
      [(msg_initialised, []);
       (msg_version,
        [CodeBuild (resp f); CodeMajor (resp f); CodeMinor (resp f);
         CodeHotfix (resp f)])] /\
    (rc = sizeof_GEN_GET_FW_VERSION_Response ->
     List.length data = Z.to_nat sizeof_GEN_GET_FW_VERSION_Response ->
     List.length (resp frame) = Z.to_nat sizeof_GEN_GET_FW_VERSION_Response ->
     resp f = data).
Proof.
  destruct (main_from_mkhi_cmd sys h frame) as [o e] eqn:E.
  destruct (main_run sys h frame o e E) as [_ [_ [_ [_ H4]]]].
  cbn [fst snd]. intros Hr.
  destruct (H4 fd len rc data errno Hr) as [f [Ho [Hresp Hout]]].
  exists f. split; [exact Ho|]. split; [exact Hresp|]. split; [exact Hout|].
  intros Hrc Hd Hb. rewrite Hresp. subst rc.
  change (sizeof_GEN_GET_FW_VERSION_Response <? 0) with false. cbv iota.
  rewrite <- Hd, firstn_all. apply overwrite_full. congruence.
Qed.

Lemma main_prints_version_from_buffer_witness :
  In (EvRead 3 20 20 fw_version_response 0)
     (snd (main_from_mkhi_cmd (mock_os (with_read (20, fw_version_response, 0) mock_good))
                [] frame_garbage)) /\
  exists f,
    fst (main_from_mkhi_cmd (mock_os (with_read (20, fw_version_response, 0) mock_good))
              [] frame_garbage) = Returned 0 f /\
    resp f = fw_version_response /\
    stdout f = [(msg_initialised, []); (msg_version, [3399; 11; 8; 50])].
Proof.
  assert (Hr : In (EvRead 3 20 20 fw_version_response 0)
                  (snd (main_from_mkhi_cmd (mock_os (with_read (20, fw_version_response, 0)
                                                 mock_good))
                             [] frame_garbage))).
  { vm_compute. do 9 right. left. reflexivity. }
  split; [exact Hr|].
  destruct (main_prints_version_from_buffer
              (mock_os (with_read (20, fw_version_response, 0) mock_good))
              [] frame_garbage 3 20 20 fw_version_response 0 Hr)
    as [f [Ho [_ [Hout Hfull]]]].
  assert (Hresp : resp f = fw_version_response)
    by (apply Hfull; reflexivity).
  exists f. split; [exact Ho|]. split; [exact Hresp|].
  rewrite Hout, Hresp. reflexivity.
Defined.
